(** * csrc/custom/custom.cpp: the pybind11 binding of the custom GEMM kernels

    The translation unit binds two kernel entry points, [LLGemm1] and
    [MMGPUKernel], to the host tensor framework.  It contains two pass-through
    functions, [LLMM1] and [MMCustomGPU], and the pybind11 module body that
    registers [LLMM1].

    The development has three layers:
    - the part of the host framework the file calls ([at::Tensor] accessors,
      the current stream, the pybind11 module object), as state-passing
      operations over a host state;
    - the two kernel entry points, which the file only declares, as an
      interface ([Kernels]) with one instance that places launches on the
      stream's work queue;
    - the functions of custom.cpp themselves, written in the operation monad
      line by line. *)

From stdpp Require Import base numbers list strings gmap pretty.

Local Open Scope Z_scope.

(** ** Machine integers *)

(** [int] is 32 bits wide.  [int M = in_a.size(0)] and the [int] parameters of
    the kernels receive an [int64_t]; the conversion keeps the value modulo
    2^32, read as a signed number (what C++20 prescribes and the compilers of
    this code did before it). *)
Definition INT_MIN : Z := - 2 ^ 31.
Definition INT_MAX : Z := 2 ^ 31 - 1.

Definition int_of_int64 (v : Z) : Z := (v + 2 ^ 31) `mod` 2 ^ 32 - 2 ^ 31.

Definition fits_int (v : Z) : Prop := INT_MIN ≤ v ≤ INT_MAX.

(** ** Host state *)

(** [c10::ScalarType]: the element types of a tensor, under the names of the
    [at::k...] constants. *)
Inductive ScalarType :=
| kByte | kChar | kShort | kInt | kLong
| kHalf | kFloat | kDouble | kBool | kBFloat16.

Global Instance ScalarType_eq_dec : EqDecision ScalarType.
Proof. solve_decision. Defined.

(** Device addresses ([void*], [float*]) and stream handles. *)
Definition ptr := Z.
Definition cudaStream_t := Z.

(** What a tensor handle points to: shape, element type, and the address of
    its first element in the buffer the host owns.  Tensors are dense and have
    storage; shape entries are [int64_t] values. *)
Record TensorImpl := {
  impl_sizes : list Z;
  impl_dtype : ScalarType;
  impl_data : ptr
}.

(** A kernel launch as the stream receives it: which entry point was called
    and the argument values it received. *)
Inductive Launch :=
| LLGemm1_launch (in_a in_b out_c : ptr) (M K : Z) (stream : cudaStream_t)
| MMGPUKernel_launch (in_a in_b out_c : ptr)
    (numARows numAColumns numBRows numBColumns numCRows numCColumns : Z)
    (stream : cudaStream_t).

(** [at::Tensor] is a reference-counted handle: copies passed by value share
    one [TensorImpl], so the shape and buffer live in the host state and a
    mutation through one copy is seen through all of them. *)
Module Tensor.
Definition t := nat.
End Tensor.

Record Host := {
  impl : Tensor.t → TensorImpl;
  current_stream : cudaStream_t;
  pending : list Launch
}.

Definition set_impl (x : Tensor.t) (i : TensorImpl) (h : Host) : Host :=
  {| impl := λ y, if decide (y = x) then i else impl h y;
     current_stream := current_stream h;
     pending := pending h |}.

Definition enqueue (l : Launch) (h : Host) : Host :=
  {| impl := impl h;
     current_stream := current_stream h;
     pending := pending h ++ [l] |}.

(** ** Operations *)

Inductive Exception :=
| c10_IndexError
| c10_Error
| std_invalid_argument (what : string)
| AttributeError (name : string)
| TypeError.

(** An operation ends by returning, by throwing, or (an unchecked array read
    out of range) with undefined behaviour. *)
Inductive Result (A : Type) :=
| Returned (a : A) (h : Host)
| Thrown (e : Exception) (h : Host)
| Undefined.
Arguments Returned {A} a h.
Arguments Thrown {A} e h.
Arguments Undefined {A}.

Definition Op (A : Type) : Type := Host → Result A.

Definition ret {A} (a : A) : Op A := λ h, Returned a h.

Definition bind {A B} (m : Op A) (k : A → Op B) : Op B := λ h,
  match m h with
  | Returned a h' => k a h'
  | Thrown e h' => Thrown e h'
  | Undefined => Undefined
  end.

Definition throw {A} (e : Exception) : Op A := λ h, Thrown e h.

Definition undefined {A} : Op A := λ _, Undefined.

Definition get {A} (f : Host → A) : Op A := λ h, Returned (f h) h.

Declare Scope op_scope.
Delimit Scope op_scope with op.
Notation "x <~ m ;; k" := (bind m (λ x, k))
  (at level 100, m at next level, right associativity) : op_scope.
Notation "m ;;; k" := (bind m (λ _, k))
  (at level 100, right associativity) : op_scope.
Local Open Scope op_scope.

(** The host state an operation ends in, when it ends in one. *)
Definition final {A} (r : Result A) : option Host :=
  match r with
  | Returned _ h | Thrown _ h => Some h
  | Undefined => None
  end.

(** ** The tensor accessors custom.cpp calls *)

(** [c10::ArrayRef<int64_t>::operator[](size_t)]: no bounds check. *)
Definition ArrayRef_index (a : list Z) (i : nat) : Op Z :=
  match a !! i with
  | Some v => ret v
  | None => undefined
  end.

(** [c10::maybe_wrap_dim(dim, ndim, /*wrap_scalar=*/false)]: a dimension index
    is accepted in [-ndim, ndim - 1], a negative one counts from the end, and
    anything else fails [TORCH_CHECK_INDEX]. *)
Definition maybe_wrap_dim (dim ndim : Z) : Op Z :=
  if decide (ndim ≤ 0) then throw c10_IndexError
  else if decide (- ndim ≤ dim ≤ ndim - 1)
       then ret (if decide (dim < 0) then dim + ndim else dim)
       else throw c10_IndexError.

Module Import TensorOps.

Definition sizes (x : Tensor.t) : Op (list Z) := get (λ h, impl_sizes (impl h x)).

Definition dim (x : Tensor.t) : Op Z :=
  s <~ sizes x ;; ret (Z.of_nat (length s)).

Definition size (x : Tensor.t) (d : Z) : Op Z :=
  s <~ sizes x ;;
  n <~ dim x ;;
  w <~ maybe_wrap_dim d n ;;
  ArrayRef_index s (Z.to_nat w).

Definition numel (x : Tensor.t) : Op Z :=
  s <~ sizes x ;; ret (foldr Z.mul 1 s).

(** [data_ptr()]: the untyped address; neither shape nor element type is
    looked at. *)
Definition data_ptr (x : Tensor.t) : Op ptr := get (λ h, impl_data (impl h x)).

(** [data_ptr<float>()]: checks the element type first. *)
Definition data_ptr_float (x : Tensor.t) : Op ptr :=
  ty <~ get (λ h, impl_dtype (impl h x)) ;;
  if decide (ty = kFloat) then data_ptr x else throw c10_Error.

(** [resize_(shape)]: replaces the shape of the shared [TensorImpl].  Buffers
    are known by their address only; the address stays. *)
Definition resize_ (x : Tensor.t) (shape : list Z) : Op unit := λ h,
  let i := impl h x in
  Returned tt (set_impl x {| impl_sizes := shape;
                             impl_dtype := impl_dtype i;
                             impl_data := impl_data i |} h).

End TensorOps.

(** [at::cuda::getCurrentCUDAStream()]. *)
Definition getCurrentCUDAStream : Op cudaStream_t := get current_stream.

(** ** The kernel entry points *)

(** custom.cpp declares the two entry points (lines 10 and 31-35) and leaves
    their definition to another translation unit.  The binding is written
    against this interface; the [int] parameters receive values already
    converted. *)
Class Kernels := {
  LLGemm1 : ptr → ptr → ptr → Z → Z → cudaStream_t → Op unit;
  MMGPUKernel : ptr → ptr → ptr → Z → Z → Z → Z → Z → Z → cudaStream_t → Op unit
}.

(** Modelled from the spec: the bodies of [LLGemm1] and [MMGPUKernel] are not
    in this file.  The spec describes a call as issuing an asynchronous kernel
    launch on the given stream: the launch is placed on the stream's queue and
    the call returns without waiting for it, so the launch is still pending
    when the caller continues. *)
Definition stream_launch : Kernels := {|
  LLGemm1 in_a in_b out_c M K stream := λ h,
    Returned tt (enqueue (LLGemm1_launch in_a in_b out_c M K stream) h);
  MMGPUKernel in_a in_b out_c rA cA rB cB rC cC stream := λ h,
    Returned tt (enqueue (MMGPUKernel_launch in_a in_b out_c rA cA rB cB rC cC stream) h)
|}.

(** ** custom.cpp *)

Section Binding.
Context {kernels : Kernels}.

(** Lines 13-25.  Lines 16-18 (the size check) and line 20 (the resize) are
    comments in the source and are not part of the function. *)
Definition LLMM1 (in_a in_b out_c : Tensor.t) : Op unit :=
  M <~ (s <~ size in_a 0 ;; ret (int_of_int64 s)) ;;
  K <~ (s <~ size in_a 1 ;; ret (int_of_int64 s)) ;;
  a <~ data_ptr in_a ;;
  b <~ data_ptr in_b ;;
  c <~ data_ptr out_c ;;
  stream <~ getCurrentCUDAStream ;;
  LLGemm1 a b c M K stream.

(** Lines 13-25 with the commented lines 16-18 and 20 put back.  The source
    never declares [N]; it is a parameter here. *)
Definition LLMM1_uncommented (N : Z) (in_a in_b out_c : Tensor.t) : Op unit :=
  M <~ (s <~ size in_a 0 ;; ret (int_of_int64 s)) ;;
  K <~ (s <~ size in_a 1 ;; ret (int_of_int64 s)) ;;
  nb <~ numel in_b ;;
  (if decide (N ≠ nb)
   then na <~ numel in_a ;;
        nb <~ numel in_b ;;
        throw (std_invalid_argument
                 ("Size mismatch A.numel(): " +:+ pretty na
                  +:+ ", B.numel(): " +:+ pretty nb))
   else ret tt) ;;;
  resize_ out_c [N] ;;;
  a <~ data_ptr in_a ;;
  b <~ data_ptr in_b ;;
  c <~ data_ptr out_c ;;
  stream <~ getCurrentCUDAStream ;;
  LLGemm1 a b c M K stream.

(** Lines 38-47.  C++ leaves the order in which the ten arguments are
    evaluated open, and an out-of-range [operator[]] makes the call undefined
    whichever order is taken; the six shape reads therefore come first.  The
    [int] parameters convert the [int64_t] entries. *)
Definition MMCustomGPU (in_a in_b out_c : Tensor.t) : Op unit :=
  matA_sizes <~ sizes in_a ;;
  matB_sizes <~ sizes in_b ;;
  matO_sizes <~ sizes out_c ;;
  numARows <~ ArrayRef_index matA_sizes 0%nat ;;
  numAColumns <~ ArrayRef_index matA_sizes 1%nat ;;
  numBRows <~ ArrayRef_index matB_sizes 0%nat ;;
  numBColumns <~ ArrayRef_index matB_sizes 1%nat ;;
  numCRows <~ ArrayRef_index matO_sizes 0%nat ;;
  numCColumns <~ ArrayRef_index matO_sizes 1%nat ;;
  a <~ data_ptr_float in_a ;;
  b <~ data_ptr_float in_b ;;
  c <~ data_ptr_float out_c ;;
  stream <~ getCurrentCUDAStream ;;
  MMGPUKernel a b c
    (int_of_int64 numARows) (int_of_int64 numAColumns)
    (int_of_int64 numBRows) (int_of_int64 numBColumns)
    (int_of_int64 numCRows) (int_of_int64 numCColumns)
    stream.

End Binding.

(** ** The extension module *)

Module pybind11.

(** What a module attribute can hold here: a string ([__name__],
    [__doc__]) or a bound native function of three tensors.  Only the
    entries this file sets or names are kept; what else the host puts into a
    module object, and what the module type itself offers, is not part of
    this table. *)
Inductive object :=
| str (s : string)
| cpp_function (f : Tensor.t → Tensor.t → Tensor.t → Op unit).

Record module_ := { attr : gmap string object }.

Definition create_extension_module (name : string) : module_ :=
  {| attr := {[ "__name__" := str name ]} |}.

(** [m.doc() = s]. *)
Definition set_doc (s : string) (m : module_) : module_ :=
  {| attr := <[ "__doc__" := str s ]> (attr m) |}.

(** [m.def(name, &f)]: binds the attribute [name] to [f], replacing what
    was there. *)
Definition def (name : string) (f : Tensor.t → Tensor.t → Tensor.t → Op unit)
    (m : module_) : module_ :=
  {| attr := <[ name := cpp_function f ]> (attr m) |}.

(** The host side, [getattr(m, name)(in_a, in_b, out_c)], for the names of
    this file ([LLMM1], [MMCustomGPU]): the attribute lookup fails with
    [AttributeError] for a name that is not bound, and calling a string fails
    with [TypeError]. *)
Definition call (m : module_) (name : string)
    (in_a in_b out_c : Tensor.t) : Op unit :=
  match attr m !! name with
  | None => throw (AttributeError name)
  | Some (str _) => throw TypeError
  | Some (cpp_function f) => f in_a in_b out_c
  end.

End pybind11.

(** Lines 50-54.  [TORCH_EXTENSION_NAME] is set by the build.  Line 53, the
    registration of [MMCustomGPU], is a comment. *)
Definition PYBIND11_MODULE {kernels : Kernels} (TORCH_EXTENSION_NAME : string)
    : pybind11.module_ :=
  let m := pybind11.create_extension_module TORCH_EXTENSION_NAME in
  let m := pybind11.set_doc "pybind11 example plugin" m in
  let m := pybind11.def "LLMM1" LLMM1 m in
  m.

(** ** Hosts used in the examples *)

(** The three handles of the examples: [in_a], [in_b] and [out_c]. *)
Definition tA : Tensor.t := 0%nat.
Definition tB : Tensor.t := 1%nat.
Definition tC : Tensor.t := 2%nat.

Definition host_of (a b c : TensorImpl) : Host :=
  {| impl := λ x, match x with O => a | S O => b | _ => c end;
     current_stream := 7;
     pending := [] |}.

Definition tensor (shape : list Z) (ty : ScalarType) (p : ptr) : TensorImpl :=
  {| impl_sizes := shape; impl_dtype := ty; impl_data := p |}.

(** A 2x3 matrix, a vector of 3 and an output of 2, in half precision. *)
Definition host_gemv : Host :=
  host_of (tensor [2; 3] kHalf 4096) (tensor [3] kHalf 8192) (tensor [2] kHalf 12288).

(** The same with a vector of 5 elements: the element counts do not match. *)
Definition host_mismatch : Host :=
  host_of (tensor [2; 3] kHalf 4096) (tensor [5] kHalf 8192) (tensor [2] kHalf 12288).

(** [in_a] has one dimension only. *)
Definition host_vector : Host :=
  host_of (tensor [6] kHalf 4096) (tensor [6] kHalf 8192) (tensor [1] kHalf 12288).

(** [in_a] has 2^32 + 2 rows. *)
Definition host_tall : Host :=
  host_of (tensor [4294967298; 1] kChar 4096) (tensor [1] kChar 8192)
          (tensor [4294967298] kChar 12288).

(** Three float matrices, 2x3, 3x4 and 2x4. *)
Definition host_float : Host :=
  host_of (tensor [2; 3] kFloat 4096) (tensor [3; 4] kFloat 8192) (tensor [2; 4] kFloat 12288).


(** Float matrices with 2^32 + 2 rows and no column: no element, so no
    memory behind them. *)
Definition host_float_tall : Host :=
  host_of (tensor [4294967298; 0] kFloat 4096) (tensor [0; 0] kFloat 8192)
          (tensor [4294967298; 0] kFloat 12288).

(** The 2x3 example seen differently: [in_a] has 2^32 + 2 rows and a third
    dimension, and the shapes and element types of [in_b] and [out_c] are
    others; addresses and stream are those of [host_gemv]. *)
Definition host_other : Host :=
  host_of (tensor [4294967298; 3; 5] kFloat 4096) (tensor [] kBool 8192)
          (tensor [7; 7] kInt 12288).


(** Float tensors of three dimensions whose inner dimensions do not match. *)
Definition host_float_3d : Host :=
  host_of (tensor [2; 3; 9] kFloat 4096) (tensor [5; 4; 9] kFloat 8192)
          (tensor [7; 1; 9] kFloat 12288).


(** * Properties *)

(** ** Conversions and accessors *)

Lemma int_of_int64_fits (v : Z) : fits_int v → int_of_int64 v = v.
Proof.
  unfold fits_int, INT_MIN, INT_MAX, int_of_int64. intros Hv.
  rewrite Z.mod_small by lia. lia.
Qed.

Lemma int_of_int64_range (v : Z) : fits_int (int_of_int64 v).
Proof.
  unfold fits_int, INT_MIN, INT_MAX, int_of_int64.
  pose proof (Z.mod_pos_bound (v + 2 ^ 31) (2 ^ 32)). lia.
Qed.

Lemma int_of_int64_wraps (v : Z) : int_of_int64 (v + 2 ^ 32) = int_of_int64 v.
Proof.
  unfold int_of_int64.
  replace (v + 2 ^ 32 + 2 ^ 31) with (v + 2 ^ 31 + 1 * 2 ^ 32) by lia.
  by rewrite Z.mod_add.
Qed.

(** The unchecked read inside its bounds. *)
Lemma ArrayRef_index_0 (v : Z) (a : list Z) :
  ArrayRef_index (v :: a) 0%nat = ret v.
Proof. reflexivity. Qed.

Lemma ArrayRef_index_1 (v w : Z) (a : list Z) :
  ArrayRef_index (v :: w :: a) 1%nat = ret w.
Proof. reflexivity. Qed.

(** [size] on a shape of at least two entries, and on shorter ones. *)
Ltac run_size Hs :=
  unfold size, dim, sizes, get, bind, ret, maybe_wrap_dim; rewrite Hs;
  cbn [length]; repeat case_decide; try lia; reflexivity.

Lemma size_0_cons (x : Tensor.t) (h : Host) (s0 : Z) (rest : list Z) :
  impl_sizes (impl h x) = s0 :: rest → size x 0 h = Returned s0 h.
Proof. intros Hs. run_size Hs. Qed.

Lemma size_1_cons (x : Tensor.t) (h : Host) (s0 s1 : Z) (rest : list Z) :
  impl_sizes (impl h x) = s0 :: s1 :: rest → size x 1 h = Returned s1 h.
Proof. intros Hs. run_size Hs. Qed.

Lemma size_0_nil (x : Tensor.t) (h : Host) :
  impl_sizes (impl h x) = [] → size x 0 h = Thrown c10_IndexError h.
Proof. intros Hs. run_size Hs. Qed.

Lemma size_1_singleton (x : Tensor.t) (h : Host) (s0 : Z) :
  impl_sizes (impl h x) = [s0] → size x 1 h = Thrown c10_IndexError h.
Proof. intros Hs. run_size Hs. Qed.

(** The typed accessor: the address for a float tensor, the host's error
    for any other element type. *)
Lemma data_ptr_float_run (x : Tensor.t) (h : Host) :
  data_ptr_float x h =
  if decide (impl_dtype (impl h x) = kFloat)
  then Returned (impl_data (impl h x)) h
  else Thrown c10_Error h.
Proof.
  unfold data_ptr_float, bind, get, data_ptr, throw.
  by destruct (decide (impl_dtype (impl h x) = kFloat)).
Qed.

(** ** What a call of each function does *)

Section Runs.
Context {kernels : Kernels}.

(** [LLMM1] in closed form: the shape of [in_a] alone decides between the
    kernel call and the index error. *)
Lemma LLMM1_run (in_a in_b out_c : Tensor.t) (h : Host) :
  LLMM1 in_a in_b out_c h =
  match impl_sizes (impl h in_a) with
  | s0 :: s1 :: _ =>
      LLGemm1 (impl_data (impl h in_a)) (impl_data (impl h in_b))
              (impl_data (impl h out_c))
              (int_of_int64 s0) (int_of_int64 s1) (current_stream h) h
  | _ => Thrown c10_IndexError h
  end.
Proof.
  unfold LLMM1. unfold bind at 1. unfold bind at 1.
  destruct (impl_sizes (impl h in_a)) as [|s0 [|s1 rest]] eqn:Hs.
  - by rewrite (size_0_nil _ _ Hs).
  - rewrite (size_0_cons _ _ _ _ Hs). unfold ret at 1.
    unfold bind at 1. unfold bind at 1.
    by rewrite (size_1_singleton _ _ _ Hs).
  - rewrite (size_0_cons _ _ _ _ Hs). unfold ret at 1.
    unfold bind at 1. unfold bind at 1.
    by rewrite (size_1_cons _ _ _ _ _ Hs).
Qed.

(** [MMCustomGPU] in closed form. *)
Lemma MMCustomGPU_run (in_a in_b out_c : Tensor.t) (h : Host) :
  MMCustomGPU in_a in_b out_c h =
  match impl_sizes (impl h in_a), impl_sizes (impl h in_b),
        impl_sizes (impl h out_c) with
  | rA :: cA :: _, rB :: cB :: _, rC :: cC :: _ =>
      if decide (impl_dtype (impl h in_a) = kFloat
                 ∧ impl_dtype (impl h in_b) = kFloat
                 ∧ impl_dtype (impl h out_c) = kFloat)
      then MMGPUKernel (impl_data (impl h in_a)) (impl_data (impl h in_b))
                       (impl_data (impl h out_c))
                       (int_of_int64 rA) (int_of_int64 cA)
                       (int_of_int64 rB) (int_of_int64 cB)
                       (int_of_int64 rC) (int_of_int64 cC)
                       (current_stream h) h
      else Thrown c10_Error h
  | _, _, _ => Undefined
  end.
Proof.
  unfold MMCustomGPU, bind, sizes, get, getCurrentCUDAStream.
  destruct (impl_sizes (impl h in_a)) as [|rA [|cA ?]]; try reflexivity;
  destruct (impl_sizes (impl h in_b)) as [|rB [|cB ?]]; try reflexivity;
  destruct (impl_sizes (impl h out_c)) as [|rC [|cC ?]]; try reflexivity.
  rewrite !ArrayRef_index_0, !ArrayRef_index_1. unfold ret.
  rewrite (data_ptr_float_run in_a).
  destruct (decide (impl_dtype (impl h in_a) = kFloat)) as [Ha|Ha];
    [|by rewrite decide_False by tauto].
  rewrite (data_ptr_float_run in_b).
  destruct (decide (impl_dtype (impl h in_b) = kFloat)) as [Hb|Hb];
    [|by rewrite decide_False by tauto].
  rewrite (data_ptr_float_run out_c).
  destruct (decide (impl_dtype (impl h out_c) = kFloat)) as [Hc|Hc];
    [|by rewrite decide_False by tauto].
  by rewrite decide_True by tauto.
Qed.

End Runs.

(** ** LLMM1: what reaches the kernel *)

(** C1, as the code has it.  For every call [LLMM1(in_a, in_b, out_c)] where
    [in_a] has at least two dimensions, the two shape reads give
    [m = in_a.size(0)] and [k = in_a.size(1)], and the call is exactly one call
    of [LLGemm1] with, in this order, the data pointers of [in_a], [in_b] and
    [out_c], [M] and [K], and the current stream.  [M] and [K] are [int]: they
    are [m] and [k] converted to 32 bits, and equal [m] and [k] whenever these
    fit in an [int]. *)
Theorem LLMM1_forwards {kernels : Kernels} (in_a in_b out_c : Tensor.t) (h : Host)
    (m k : Z) (rest : list Z) :
  impl_sizes (impl h in_a) = m :: k :: rest →
  size in_a 0 h = Returned m h
  ∧ size in_a 1 h = Returned k h
  ∧ data_ptr in_a h = Returned (impl_data (impl h in_a)) h
  ∧ data_ptr in_b h = Returned (impl_data (impl h in_b)) h
  ∧ data_ptr out_c h = Returned (impl_data (impl h out_c)) h
  ∧ getCurrentCUDAStream h = Returned (current_stream h) h
  ∧ LLMM1 in_a in_b out_c h =
      LLGemm1 (impl_data (impl h in_a)) (impl_data (impl h in_b))
              (impl_data (impl h out_c))
              (int_of_int64 m) (int_of_int64 k) (current_stream h) h
  ∧ (fits_int m → int_of_int64 m = m)
  ∧ (fits_int k → int_of_int64 k = k).
Proof.
  intros Hs. split; [exact (size_0_cons _ _ _ _ Hs)|].
  split; [exact (size_1_cons _ _ _ _ _ Hs)|].
  do 4 (split; [reflexivity|]).
  split; [by rewrite LLMM1_run, Hs|].
  split; apply int_of_int64_fits.
Qed.

(** The 2x3 example: the kernel is launched with M = 2 and K = 3. *)
Lemma LLMM1_forwards_witness :
  impl_sizes (impl host_gemv tA) = [2; 3]
  ∧ LLMM1 (kernels := stream_launch) tA tB tC host_gemv =
      Returned tt (enqueue (LLGemm1_launch 4096 8192 12288 2 3 7) host_gemv).
Proof.
  split; [reflexivity|].
  pose proof (LLMM1_forwards (kernels := stream_launch) tA tB tC host_gemv 2 3 []
                eq_refl) as (_ & _ & _ & _ & _ & _ & Hrun & _).
  exact Hrun.
Defined.

(** C1, counterexample.  With 2^32 + 2 rows in [in_a], [in_a.size(0)] is
    4294967298 and the kernel receives M = 2: the row count is not forwarded
    as it is. *)
Lemma LLMM1_row_count_wraps :
  impl_sizes (impl host_tall tA) = [4294967298; 1]
  ∧ size tA 0 host_tall = Returned 4294967298 host_tall
  ∧ LLMM1 (kernels := stream_launch) tA tB tC host_tall =
      Returned tt (enqueue (LLGemm1_launch 4096 8192 12288 2 1 7) host_tall)
  ∧ LLMM1 (kernels := stream_launch) tA tB tC host_tall ≠
      LLGemm1 (Kernels := stream_launch) 4096 8192 12288 4294967298 1 7 host_tall.
Proof.
  split; [reflexivity|]. split; [reflexivity|]. split; [reflexivity|].
  intros Heq. vm_compute in Heq. discriminate Heq.
Qed.

(** C9.  [LLMM1] needs [in_a] to have at least two dimensions.  With two or
    more, [in_a.size(0)] and [in_a.size(1)] are in bounds, neither ends in the
    index error, and the call goes on to the kernel.  With fewer, the lookup
    throws the host's index error and the call ends there, in the host state
    it started from, whatever the kernel is: no kernel call is made. *)
Theorem LLMM1_needs_two_dimensions {kernels : Kernels}
    (in_a in_b out_c : Tensor.t) (h : Host) :
  ((2 ≤ length (impl_sizes (impl h in_a)))%nat →
     ∃ m k, size in_a 0 h = Returned m h
            ∧ size in_a 1 h = Returned k h
            ∧ LLMM1 in_a in_b out_c h =
                LLGemm1 (impl_data (impl h in_a)) (impl_data (impl h in_b))
                        (impl_data (impl h out_c))
                        (int_of_int64 m) (int_of_int64 k) (current_stream h) h)
  ∧ ((length (impl_sizes (impl h in_a)) < 2)%nat →
       (size in_a 0 h = Thrown c10_IndexError h
        ∨ size in_a 1 h = Thrown c10_IndexError h)
       ∧ LLMM1 in_a in_b out_c h = Thrown c10_IndexError h).
Proof.
  rewrite LLMM1_run.
  destruct (impl_sizes (impl h in_a)) as [|m [|k rest]] eqn:Hs; cbn [length].
  - split; [lia|]. intros _. split; [|reflexivity].
    left. exact (size_0_nil _ _ Hs).
  - split; [lia|]. intros _. split; [|reflexivity].
    right. exact (size_1_singleton _ _ _ Hs).
  - split; [|lia]. intros _. exists m, k.
    split; [exact (size_0_cons _ _ _ _ Hs)|].
    split; [exact (size_1_cons _ _ _ _ _ Hs)|]. reflexivity.
Qed.

(** Both sides on examples: the 2x3 matrix reaches the kernel, the vector of
    six ends in the index error with nothing launched. *)
Lemma LLMM1_needs_two_dimensions_witness :
  (∃ m k, size tA 0 host_gemv = Returned m host_gemv
          ∧ size tA 1 host_gemv = Returned k host_gemv
          ∧ LLMM1 (kernels := stream_launch) tA tB tC host_gemv =
              LLGemm1 (Kernels := stream_launch) 4096 8192 12288
                      (int_of_int64 m) (int_of_int64 k) 7 host_gemv)
  ∧ LLMM1 (kernels := stream_launch) tA tB tC host_vector =
      Thrown c10_IndexError host_vector.
Proof.
  split.
  - apply (LLMM1_needs_two_dimensions (kernels := stream_launch)
             tA tB tC host_gemv). cbn. lia.
  - apply (LLMM1_needs_two_dimensions (kernels := stream_launch)
             tA tB tC host_vector). cbn. lia.
Defined.

(** C3, as the code has it.  [LLMM1] checks nothing about [in_b]: whenever
    [in_a] has at least two dimensions the call is the kernel call, for every
    [in_b], also one whose element count differs from [in_a]'s; and giving
    [in_b] any other shape changes neither that nor the arguments. *)
Theorem LLMM1_no_size_check {kernels : Kernels} (in_a in_b out_c : Tensor.t)
    (h : Host) (m k : Z) (rest : list Z) :
  impl_sizes (impl h in_a) = m :: k :: rest →
  LLMM1 in_a in_b out_c h =
    LLGemm1 (impl_data (impl h in_a)) (impl_data (impl h in_b))
            (impl_data (impl h out_c))
            (int_of_int64 m) (int_of_int64 k) (current_stream h) h
  ∧ ∀ shape : list Z,
      in_a ≠ in_b →
      let h' := set_impl in_b (tensor shape (impl_dtype (impl h in_b))
                                      (impl_data (impl h in_b))) h in
      LLMM1 in_a in_b out_c h' =
        LLGemm1 (impl_data (impl h in_a)) (impl_data (impl h in_b))
                (impl_data (impl h out_c))
                (int_of_int64 m) (int_of_int64 k) (current_stream h) h'.
Proof.
  intros Hs. split; [by rewrite LLMM1_run, Hs|].
  intros shape Hne h'. rewrite LLMM1_run. subst h'. unfold set_impl; cbn.
  rewrite (decide_False (P := in_a = in_b)) by done. rewrite Hs.
  rewrite (decide_True (P := in_b = in_b)) by done.
  destruct (decide (out_c = in_b)) as [->|]; reflexivity.
Qed.

(** Element counts 6 and 5: the kernel is launched all the same. *)
Lemma LLMM1_no_size_check_witness :
  numel tA host_mismatch = Returned 6 host_mismatch
  ∧ numel tB host_mismatch = Returned 5 host_mismatch
  ∧ LLMM1 (kernels := stream_launch) tA tB tC host_mismatch =
      Returned tt (enqueue (LLGemm1_launch 4096 8192 12288 2 3 7) host_mismatch).
Proof.
  split; [reflexivity|]. split; [reflexivity|].
  exact (proj1 (LLMM1_no_size_check (kernels := stream_launch)
                  tA tB tC host_mismatch 2 3 [] eq_refl)).
Defined.

(** C3, counterexample.  The kernel call is not reached for every pair of
    tensors: with a one-dimensional [in_a] the call ends in the index error
    and no argument list makes it a call of [LLGemm1]. *)
Lemma LLMM1_vector_no_kernel_call :
  LLMM1 (kernels := stream_launch) tA tB tC host_vector =
    Thrown c10_IndexError host_vector
  ∧ ¬ ∃ a b c M K stream,
        LLMM1 (kernels := stream_launch) tA tB tC host_vector =
        LLGemm1 (Kernels := stream_launch) a b c M K stream host_vector.
Proof.
  split; [reflexivity|]. intros (a & b & c & M & K & stream & Heq).
  discriminate Heq.
Qed.

(** ** Exceptions *)




(** ** Frame *)

(** C7.  [LLMM1] returns [void] and does nothing to the host state itself:
    for every observation of the host state (the shape, element type or
    buffer address of any tensor, the current stream, the pending work), if
    the kernel entry point leaves it as it is, so does the whole call.  Only
    what [LLGemm1] does can change anything. *)
Theorem LLMM1_mutates_nothing {kernels : Kernels} {X : Type} (obs : Host → X)
    (in_a in_b out_c : Tensor.t) (h h' : Host) :
  (∀ a b c M K stream h0 h1,
     final (LLGemm1 a b c M K stream h0) = Some h1 → obs h1 = obs h0) →
  final (LLMM1 in_a in_b out_c h) = Some h' →
  obs h' = obs h.
Proof.
  intros Hkernel. rewrite LLMM1_run.
  destruct (impl_sizes (impl h in_a)) as [|m [|k rest]]; cbn [final].
  - by intros [= <-].
  - by intros [= <-].
  - apply Hkernel.
Qed.

(** With the launch-queue kernel, which touches the queue only, the table of
    tensors after the call on the 2x3 example is the one before it. *)
Lemma LLMM1_mutates_nothing_witness :
  final (LLMM1 (kernels := stream_launch) tA tB tC host_gemv)
    = Some (enqueue (LLGemm1_launch 4096 8192 12288 2 3 7) host_gemv)
  ∧ impl (enqueue (LLGemm1_launch 4096 8192 12288 2 3 7) host_gemv)
    = impl host_gemv.
Proof.
  split; [reflexivity|].
  apply (LLMM1_mutates_nothing (kernels := stream_launch) impl
           tA tB tC host_gemv).
  - intros a b c M K stream h0 h1 Hfin. injection Hfin as <-. reflexivity.
  - reflexivity.
Defined.

(** ** Dispatch *)

(** C8, as the code has it.  A call of [LLMM1] whose [in_a] has at least two
    dimensions is the launch call and nothing else: what [LLGemm1] ends with
    is what [LLMM1] ends with, so nothing (no wait, no synchronisation, no
    completion check) follows the launch.  With the launch placed on the
    stream's queue, the call returns with exactly one more pending launch, on
    the current stream, behind everything that was pending before, and with
    the rest of the host state as it was. *)
Theorem LLMM1_enqueues_and_returns (in_a in_b out_c : Tensor.t) (h : Host)
    (m k : Z) (rest : list Z) :
  impl_sizes (impl h in_a) = m :: k :: rest →
  (∀ kernels : Kernels,
     LLMM1 in_a in_b out_c h =
     LLGemm1 (impl_data (impl h in_a)) (impl_data (impl h in_b))
             (impl_data (impl h out_c))
             (int_of_int64 m) (int_of_int64 k) (current_stream h) h)
  ∧ ∃ h', LLMM1 (kernels := stream_launch) in_a in_b out_c h = Returned tt h'
          ∧ pending h' =
              pending h ++
              [LLGemm1_launch (impl_data (impl h in_a)) (impl_data (impl h in_b))
                              (impl_data (impl h out_c))
                              (int_of_int64 m) (int_of_int64 k) (current_stream h)]
          ∧ impl h' = impl h
          ∧ current_stream h' = current_stream h.
Proof.
  intros Hs. split.
  - intros kernels. by rewrite LLMM1_run, Hs.
  - eexists. rewrite LLMM1_run, Hs. cbn. repeat split.
Qed.

(** On the 2x3 example the queue goes from empty to one launch. *)
Lemma LLMM1_enqueues_and_returns_witness :
  ∃ h', LLMM1 (kernels := stream_launch) tA tB tC host_gemv = Returned tt h'
        ∧ pending h' = [] ++ [LLGemm1_launch 4096 8192 12288 2 3 7]
        ∧ impl h' = impl host_gemv
        ∧ current_stream h' = 7.
Proof.
  exact (proj2 (LLMM1_enqueues_and_returns tA tB tC host_gemv 2 3 [] eq_refl)).
Defined.

(** C8, counterexample.  Not every call enqueues a launch and returns: with
    the one-dimensional [in_a] the call throws, and the queue stays empty. *)
Lemma LLMM1_vector_enqueues_nothing :
  final (LLMM1 (kernels := stream_launch) tA tB tC host_vector) = Some host_vector
  ∧ pending host_vector = []
  ∧ ¬ ∃ h', LLMM1 (kernels := stream_launch) tA tB tC host_vector = Returned tt h'.
Proof.
  split; [reflexivity|]. split; [reflexivity|].
  intros (h' & Heq). discriminate Heq.
Qed.

(** ** MMCustomGPU *)

(** C5, as the code has it.  The call of [MMGPUKernel] in the body of
    [MMCustomGPU] is live code: every call with three float tensors of at
    least two dimensions each is a call of the kernel entry point.  What is
    commented out is the registration: the extension module has no attribute
    [MMCustomGPU]. *)
Theorem MMCustomGPU_calls_kernel {kernels : Kernels} (in_a in_b out_c : Tensor.t)
    (h : Host) (TORCH_EXTENSION_NAME : string) :
  (2 ≤ length (impl_sizes (impl h in_a)))%nat →
  (2 ≤ length (impl_sizes (impl h in_b)))%nat →
  (2 ≤ length (impl_sizes (impl h out_c)))%nat →
  impl_dtype (impl h in_a) = kFloat →
  impl_dtype (impl h in_b) = kFloat →
  impl_dtype (impl h out_c) = kFloat →
  (∃ rA cA rB cB rC cC,
     MMCustomGPU in_a in_b out_c h =
     MMGPUKernel (impl_data (impl h in_a)) (impl_data (impl h in_b))
                 (impl_data (impl h out_c)) rA cA rB cB rC cC
                 (current_stream h) h)
  ∧ pybind11.attr (PYBIND11_MODULE TORCH_EXTENSION_NAME) !! "MMCustomGPU" = None.
Proof.
  intros Ha Hb Hc Ta Tb Tc. split; [|reflexivity].
  rewrite MMCustomGPU_run.
  destruct (impl_sizes (impl h in_a)) as [|rA [|cA ?]]; cbn in Ha; try lia.
  destruct (impl_sizes (impl h in_b)) as [|rB [|cB ?]]; cbn in Hb; try lia.
  destruct (impl_sizes (impl h out_c)) as [|rC [|cC ?]]; cbn in Hc; try lia.
  rewrite decide_True by done. eauto 10.
Qed.

(** The three float matrices: one launch of [MMGPUKernel] is enqueued. *)
Lemma MMCustomGPU_calls_kernel_witness :
  (∃ rA cA rB cB rC cC,
     MMCustomGPU (kernels := stream_launch) tA tB tC host_float =
     MMGPUKernel (Kernels := stream_launch) 4096 8192 12288 rA cA rB cB rC cC 7
                 host_float)
  ∧ pybind11.attr (PYBIND11_MODULE (kernels := stream_launch) "custom_C")
      !! "MMCustomGPU" = None.
Proof.
  apply (MMCustomGPU_calls_kernel (kernels := stream_launch)
           tA tB tC host_float "custom_C");
    solve [cbn; lia | reflexivity].
Defined.

(** C5, counterexample.  A call of [MMCustomGPU] does make a kernel call: on
    the three float matrices the queue, empty before, holds a launch of
    [MMGPUKernel] after. *)
Lemma MMCustomGPU_makes_a_kernel_call :
  pending host_float = []
  ∧ MMCustomGPU (kernels := stream_launch) tA tB tC host_float =
      Returned tt
        (enqueue (MMGPUKernel_launch 4096 8192 12288 2 3 3 4 2 4 7) host_float).
Proof. split; reflexivity. Qed.

(** C6, as the code has it.  For every call of [MMCustomGPU] with three
    two-dimensional float tensors, the call is one call of [MMGPUKernel] with
    the three float pointers, then rows and columns of [in_a], of [in_b] and
    of [out_c] in this order, each the shape entry converted to [int], and
    last the current stream.  When the six entries fit in an [int] the kernel
    receives the entries themselves. *)
Theorem MMCustomGPU_forwards {kernels : Kernels} (in_a in_b out_c : Tensor.t)
    (h : Host) (rA cA rB cB rC cC : Z) :
  impl_sizes (impl h in_a) = [rA; cA] →
  impl_sizes (impl h in_b) = [rB; cB] →
  impl_sizes (impl h out_c) = [rC; cC] →
  impl_dtype (impl h in_a) = kFloat →
  impl_dtype (impl h in_b) = kFloat →
  impl_dtype (impl h out_c) = kFloat →
  data_ptr_float in_a h = Returned (impl_data (impl h in_a)) h
  ∧ data_ptr_float in_b h = Returned (impl_data (impl h in_b)) h
  ∧ data_ptr_float out_c h = Returned (impl_data (impl h out_c)) h
  ∧ MMCustomGPU in_a in_b out_c h =
      MMGPUKernel (impl_data (impl h in_a)) (impl_data (impl h in_b))
                  (impl_data (impl h out_c))
                  (int_of_int64 rA) (int_of_int64 cA)
                  (int_of_int64 rB) (int_of_int64 cB)
                  (int_of_int64 rC) (int_of_int64 cC)
                  (current_stream h) h
  ∧ (Forall fits_int [rA; cA; rB; cB; rC; cC] →
     MMCustomGPU in_a in_b out_c h =
       MMGPUKernel (impl_data (impl h in_a)) (impl_data (impl h in_b))
                   (impl_data (impl h out_c)) rA cA rB cB rC cC
                   (current_stream h) h).
Proof.
  intros Ha Hb Hc Ta Tb Tc.
  assert (Hrun : MMCustomGPU in_a in_b out_c h =
      MMGPUKernel (impl_data (impl h in_a)) (impl_data (impl h in_b))
                  (impl_data (impl h out_c))
                  (int_of_int64 rA) (int_of_int64 cA)
                  (int_of_int64 rB) (int_of_int64 cB)
                  (int_of_int64 rC) (int_of_int64 cC)
                  (current_stream h) h).
  { rewrite MMCustomGPU_run, Ha, Hb, Hc. by rewrite decide_True. }
  rewrite !data_ptr_float_run, !decide_True by done.
  do 3 (split; [reflexivity|]). split; [exact Hrun|].
  intros Hfit. rewrite Hrun.
  repeat match goal with
         | F : Forall _ (_ :: _) |- _ =>
             apply Forall_cons in F; destruct F as [?%int_of_int64_fits F]
         end.
  congruence.
Qed.

(** The 2x3, 3x4 and 2x4 matrices: the launch carries 2 3 3 4 2 4. *)
Lemma MMCustomGPU_forwards_witness :
  MMCustomGPU (kernels := stream_launch) tA tB tC host_float =
    Returned tt
      (enqueue (MMGPUKernel_launch 4096 8192 12288 2 3 3 4 2 4 7) host_float).
Proof.
  pose proof (MMCustomGPU_forwards (kernels := stream_launch) tA tB tC host_float
                2 3 3 4 2 4 eq_refl eq_refl eq_refl eq_refl eq_refl eq_refl)
    as (_ & _ & _ & Hrun & _).
  exact Hrun.
Defined.

(** C6, counterexample.  With 2^32 + 2 rows in [in_a] and in [out_c] the
    first entries of the shapes are 4294967298 and the kernel receives 2 for
    both row counts. *)
Lemma MMCustomGPU_row_count_wraps :
  impl_sizes (impl host_float_tall tA) = [4294967298; 0]
  ∧ impl_sizes (impl host_float_tall tB) = [0; 0]
  ∧ impl_sizes (impl host_float_tall tC) = [4294967298; 0]
  ∧ MMCustomGPU (kernels := stream_launch) tA tB tC host_float_tall =
      Returned tt
        (enqueue (MMGPUKernel_launch 4096 8192 12288 2 0 0 0 2 0 7)
                 host_float_tall)
  ∧ MMCustomGPU (kernels := stream_launch) tA tB tC host_float_tall ≠
      MMGPUKernel (Kernels := stream_launch) 4096 8192 12288
                  4294967298 0 0 0 4294967298 0 7 host_float_tall.
Proof.
  do 4 (split; [reflexivity|]).
  intros Heq. vm_compute in Heq. discriminate Heq.
Qed.



(** ** The extension module *)

(** C2.  The module body registers one native function: the only attribute
    of the extension module bound to a function is ["LLMM1"], and it is bound
    to [LLMM1].  [MMCustomGPU] is not an attribute, so for every caller
    [module.MMCustomGPU(in_a, in_b, out_c)] fails in the host's attribute
    lookup, before any code of this file runs. *)
Theorem module_registers_LLMM1_only {kernels : Kernels}
    (TORCH_EXTENSION_NAME : string) (in_a in_b out_c : Tensor.t) (h : Host) :
  (∀ name f,
     pybind11.attr (PYBIND11_MODULE TORCH_EXTENSION_NAME) !! name
       = Some (pybind11.cpp_function f)
     ↔ name = "LLMM1" ∧ f = LLMM1)
  ∧ pybind11.attr (PYBIND11_MODULE TORCH_EXTENSION_NAME) !! "MMCustomGPU" = None
  ∧ pybind11.call (PYBIND11_MODULE TORCH_EXTENSION_NAME) "LLMM1" in_a in_b out_c h
    = LLMM1 in_a in_b out_c h
  ∧ pybind11.call (PYBIND11_MODULE TORCH_EXTENSION_NAME) "MMCustomGPU"
                  in_a in_b out_c h
    = Thrown (AttributeError "MMCustomGPU") h.
Proof.
  split; [|by repeat split].
  intros name f. unfold PYBIND11_MODULE, pybind11.def, pybind11.set_doc,
    pybind11.create_extension_module; cbn [pybind11.attr].
  destruct (decide (name = "LLMM1")) as [->|Hname].
  - rewrite lookup_insert_eq. split.
    + by intros [= <-].
    + by intros [_ ->].
  - rewrite lookup_insert_ne by done.
    split; [|by intros [? _]]. intros Hlook. exfalso.
    destruct (decide (name = "__doc__")) as [->|Hdoc].
    + by rewrite lookup_insert_eq in Hlook.
    + rewrite lookup_insert_ne in Hlook by done.
      apply lookup_singleton_Some in Hlook as [_ [=]].
Qed.

(** ** The commented lines, for comparison *)

(** With lines 16-18 put back, a call whose [N] differs from the element
    count of [in_b] throws [std::invalid_argument] from the binding itself,
    before the kernel, whatever the kernel is. *)
Lemma LLMM1_uncommented_checks {kernels : Kernels} (N : Z)
    (in_a in_b out_c : Tensor.t) (h : Host) (m k : Z) (rest : list Z) :
  impl_sizes (impl h in_a) = m :: k :: rest →
  numel in_b h ≠ Returned N h →
  ∃ what, LLMM1_uncommented N in_a in_b out_c h
          = Thrown (std_invalid_argument what) h.
Proof.
  intros Hs HN. unfold LLMM1_uncommented.
  unfold bind at 1. unfold bind at 1. rewrite (size_0_cons _ _ _ _ Hs).
  unfold ret at 1. unfold bind at 1. unfold bind at 1.
  rewrite (size_1_cons _ _ _ _ _ Hs). unfold ret at 1.
  unfold bind at 1. unfold numel at 1, sizes, bind at 1, get, ret at 1.
  unfold bind at 1.
  destruct (decide (N ≠ foldr Z.mul 1 (impl_sizes (impl h in_b)))) as [|Heq].
  - eexists. reflexivity.
  - exfalso. apply HN. apply dec_stable in Heq. by rewrite Heq.
Qed.

(** With lines 16-18 put back and [N] the element count of [in_a], the call
    on the mismatched example throws from the binding itself, where [LLMM1]
    launches the kernel. *)
Lemma LLMM1_uncommented_rejects_mismatch :
  LLMM1_uncommented (kernels := stream_launch) 6 tA tB tC host_mismatch =
    Thrown (std_invalid_argument "Size mismatch A.numel(): 6, B.numel(): 5")
           host_mismatch.
Proof. reflexivity. Qed.

(** With line 20 put back, the shape of [out_c] after the call is [[N]];
    after [LLMM1] it is what it was. *)
Lemma LLMM1_uncommented_resizes_out_c :
  impl_sizes (impl host_gemv tC) = [2]
  ∧ (∃ h', LLMM1_uncommented (kernels := stream_launch) 3 tA tB tC host_gemv
             = Returned tt h'
           ∧ impl_sizes (impl h' tC) = [3])
  ∧ (∃ h', LLMM1 (kernels := stream_launch) tA tB tC host_gemv = Returned tt h'
           ∧ impl_sizes (impl h' tC) = [2]).
Proof.
  split; [reflexivity|]. split; eexists; split; reflexivity.
Qed.

(** * Further properties of the binding *)

(** ** LLMM1 *)

(** X1.  What [LLMM1] hands to the kernel depends on the host state only
    through the first two entries of [in_a]'s shape as [int], the three data
    addresses and the current stream: two host states that agree on these give
    the same kernel call, whatever else differs (further dimensions of [in_a],
    the shapes of [in_b] and [out_c], any element type). *)
Theorem LLMM1_depends_only_on {kernels : Kernels} (in_a in_b out_c : Tensor.t)
    (h1 h2 : Host) (m1 k1 m2 k2 : Z) (rest1 rest2 : list Z) :
  impl_sizes (impl h1 in_a) = m1 :: k1 :: rest1 →
  impl_sizes (impl h2 in_a) = m2 :: k2 :: rest2 →
  int_of_int64 m1 = int_of_int64 m2 →
  int_of_int64 k1 = int_of_int64 k2 →
  impl_data (impl h1 in_a) = impl_data (impl h2 in_a) →
  impl_data (impl h1 in_b) = impl_data (impl h2 in_b) →
  impl_data (impl h1 out_c) = impl_data (impl h2 out_c) →
  current_stream h1 = current_stream h2 →
  ∃ call : Op unit,
    call = LLGemm1 (impl_data (impl h1 in_a)) (impl_data (impl h1 in_b))
                   (impl_data (impl h1 out_c))
                   (int_of_int64 m1) (int_of_int64 k1) (current_stream h1)
    ∧ LLMM1 in_a in_b out_c h1 = call h1
    ∧ LLMM1 in_a in_b out_c h2 = call h2.
Proof.
  intros Hs1 Hs2 Hm Hk Ha Hb Hc Hst. eexists. split; [reflexivity|].
  rewrite !LLMM1_run, Hs1, Hs2, Hm, Hk, Ha, Hb, Hc, Hst. done.
Qed.

(** [host_gemv] and [host_other] give the same launch: M = 2, K = 3. *)
Lemma LLMM1_depends_only_on_witness :
  ∃ call : Op unit,
    call = LLGemm1 (Kernels := stream_launch) 4096 8192 12288
                   (int_of_int64 2) (int_of_int64 3) 7
    ∧ LLMM1 (kernels := stream_launch) tA tB tC host_gemv = call host_gemv
    ∧ LLMM1 (kernels := stream_launch) tA tB tC host_other = call host_other.
Proof.
  apply (LLMM1_depends_only_on (kernels := stream_launch) tA tB tC
           host_gemv host_other 2 3 4294967298 3 [] [5]); reflexivity.
Defined.



(** X3.  [LLMM1] has no undefined behaviour of its own: both shape reads go
    through the checked [size].  If the kernel entry point is defined on every
    input, so is every call of [LLMM1], for any tensors. *)
Theorem LLMM1_always_defined {kernels : Kernels}
    (in_a in_b out_c : Tensor.t) (h : Host) :
  (∀ a b c M K stream h0, is_Some (final (LLGemm1 a b c M K stream h0))) →
  is_Some (final (LLMM1 in_a in_b out_c h)).
Proof.
  intros Hkernel. rewrite LLMM1_run.
  destruct (impl_sizes (impl h in_a)) as [|m [|k rest]]; cbn [final]; eauto.
Qed.

(** The launch-queue kernel is defined everywhere; so is [LLMM1] on the
    one-dimensional example. *)
Lemma LLMM1_always_defined_witness :
  is_Some (final (LLMM1 (kernels := stream_launch) tA tB tC host_vector)).
Proof.
  apply (LLMM1_always_defined (kernels := stream_launch) tA tB tC host_vector).
  intros a b c M K stream h0. cbn. eauto.
Defined.

(** X4.  Two calls in a row.  If the kernel entry point, when it returns,
    leaves the table of tensors and the current stream as they were, then
    [LLMM1] called twice is the two kernel calls in program order, the second
    with the arguments it would have had from the initial state. *)
Theorem LLMM1_twice {kernels : Kernels} (a1 b1 c1 a2 b2 c2 : Tensor.t) (h : Host)
    (m1 k1 m2 k2 : Z) (rest1 rest2 : list Z) :
  (∀ a b c M K stream h0 h1 u,
     LLGemm1 a b c M K stream h0 = Returned u h1 →
     impl h1 = impl h0 ∧ current_stream h1 = current_stream h0) →
  impl_sizes (impl h a1) = m1 :: k1 :: rest1 →
  impl_sizes (impl h a2) = m2 :: k2 :: rest2 →
  (LLMM1 a1 b1 c1 ;;; LLMM1 a2 b2 c2) h =
  (LLGemm1 (impl_data (impl h a1)) (impl_data (impl h b1))
           (impl_data (impl h c1))
           (int_of_int64 m1) (int_of_int64 k1) (current_stream h) ;;;
   LLGemm1 (impl_data (impl h a2)) (impl_data (impl h b2))
           (impl_data (impl h c2))
           (int_of_int64 m2) (int_of_int64 k2) (current_stream h)) h.
Proof.
  intros Hkernel Hs1 Hs2. unfold bind. rewrite LLMM1_run, Hs1.
  destruct (LLGemm1 _ _ _ _ _ _ h) as [u h1| |] eqn:Hcall; try reflexivity.
  destruct (Hkernel _ _ _ _ _ _ _ _ _ Hcall) as [Himpl Hstream].
  by rewrite LLMM1_run, Himpl, Hs2, Hstream.
Qed.

(** Two calls on the 2x3 example put two launches on the queue. *)
Lemma LLMM1_twice_witness :
  (LLMM1 (kernels := stream_launch) tA tB tC ;;;
   LLMM1 (kernels := stream_launch) tA tB tC) host_gemv =
  (LLGemm1 (Kernels := stream_launch) 4096 8192 12288
           (int_of_int64 2) (int_of_int64 3) 7 ;;;
   LLGemm1 (Kernels := stream_launch) 4096 8192 12288
           (int_of_int64 2) (int_of_int64 3) 7) host_gemv.
Proof.
  apply (LLMM1_twice (kernels := stream_launch) tA tB tC tA tB tC host_gemv
           2 3 2 3 [] []); [|reflexivity|reflexivity].
  intros a b c M K stream h0 h1 u Hcall. injection Hcall as _ <-.
  split; reflexivity.
Defined.

(** ** MMCustomGPU *)



(** X6.  [MMCustomGPU] compares no shapes and looks at the first two entries
    of each only: float tensors of two or more dimensions reach the kernel
    whatever their inner dimensions are, and the dimensions after the second
    do not appear in the call. *)
Theorem MMCustomGPU_first_two_entries {kernels : Kernels}
    (in_a in_b out_c : Tensor.t) (h : Host)
    (rA cA rB cB rC cC : Z) (restA restB restC : list Z) :
  impl_sizes (impl h in_a) = rA :: cA :: restA →
  impl_sizes (impl h in_b) = rB :: cB :: restB →
  impl_sizes (impl h out_c) = rC :: cC :: restC →
  impl_dtype (impl h in_a) = kFloat →
  impl_dtype (impl h in_b) = kFloat →
  impl_dtype (impl h out_c) = kFloat →
  MMCustomGPU in_a in_b out_c h =
    MMGPUKernel (impl_data (impl h in_a)) (impl_data (impl h in_b))
                (impl_data (impl h out_c))
                (int_of_int64 rA) (int_of_int64 cA)
                (int_of_int64 rB) (int_of_int64 cB)
                (int_of_int64 rC) (int_of_int64 cC)
                (current_stream h) h.
Proof.
  intros Ha Hb Hc Ta Tb Tc.
  rewrite MMCustomGPU_run, Ha, Hb, Hc. by rewrite decide_True.
Qed.

(** Shapes 2x3x9, 5x4x9 and 7x1x9: the launch carries 2 3 5 4 7 1. *)
Lemma MMCustomGPU_first_two_entries_witness :
  MMCustomGPU (kernels := stream_launch) tA tB tC host_float_3d =
    Returned tt
      (enqueue (MMGPUKernel_launch 4096 8192 12288 2 3 5 4 7 1 7) host_float_3d).
Proof.
  exact (MMCustomGPU_first_two_entries (kernels := stream_launch) tA tB tC
           host_float_3d 2 3 5 4 7 1 [9] [9] [9]
           eq_refl eq_refl eq_refl eq_refl eq_refl eq_refl).
Defined.

(** X7.  [MMCustomGPU] does nothing to the host state itself: an observation
    of the host state that the kernel entry point leaves as it is, is left as
    it is by the whole call, whether it returns or throws. *)
Theorem MMCustomGPU_mutates_nothing {kernels : Kernels} {X : Type}
    (obs : Host → X) (in_a in_b out_c : Tensor.t) (h h' : Host) :
  (∀ a b c rA cA rB cB rC cC stream h0 h1,
     final (MMGPUKernel a b c rA cA rB cB rC cC stream h0) = Some h1 →
     obs h1 = obs h0) →
  final (MMCustomGPU in_a in_b out_c h) = Some h' →
  obs h' = obs h.
Proof.
  intros Hkernel. rewrite MMCustomGPU_run.
  destruct (impl_sizes (impl h in_a)) as [|rA [|cA ?]]; try discriminate;
  destruct (impl_sizes (impl h in_b)) as [|rB [|cB ?]]; try discriminate;
  destruct (impl_sizes (impl h out_c)) as [|rC [|cC ?]]; try discriminate.
  case_decide; cbn [final].
  - apply Hkernel.
  - by intros [= <-].
Qed.

(** The table of tensors after the call on the three float matrices. *)
Lemma MMCustomGPU_mutates_nothing_witness :
  final (MMCustomGPU (kernels := stream_launch) tA tB tC host_float)
    = Some (enqueue (MMGPUKernel_launch 4096 8192 12288 2 3 3 4 2 4 7) host_float)
  ∧ impl (enqueue (MMGPUKernel_launch 4096 8192 12288 2 3 3 4 2 4 7) host_float)
    = impl host_float.
Proof.
  split; [reflexivity|].
  apply (MMCustomGPU_mutates_nothing (kernels := stream_launch) impl
           tA tB tC host_float).
  - intros a b c rA cA rB cB rC cC stream h0 h1 Hfin.
    injection Hfin as <-. reflexivity.
  - reflexivity.
Defined.
